(** * vkb::Subpass (framework/rendering/subpass.h)

    A shallow embedding of the light-packing operations
    [allocate_lights] and [allocate_set_num_lights] and of the attachment
    state of [Subpass], followed by the properties the specification
    states about them. *)

From stdpp Require Import base numbers list strings.

Local Open Scope N_scope.

(** ** Results of a C++ call

    A call either returns, stops in [assert], leaves through an exception,
    or has no defined behaviour (an access outside an object).  [OutOfFuel]
    is the model's own: the iteration budget of a loop was used up. *)

Inductive outcome (A : Type) : Type :=
| Returned (a : A)
| AssertionFailed (msg : string)
| Thrown (what : string)
| Undefined
| OutOfFuel.

Arguments Returned {A} a.
Arguments AssertionFailed {A} msg.
Arguments Thrown {A} what.
Arguments Undefined {A}.
Arguments OutOfFuel {A}.

#[export] Instance outcome_ret : MRet outcome := fun A a => Returned a.

#[export] Instance outcome_bind : MBind outcome := fun A B k m =>
  match m with
  | Returned a => k a
  | AssertionFailed msg => AssertionFailed msg
  | Thrown what => Thrown what
  | Undefined => Undefined
  | OutOfFuel => OutOfFuel
  end.

(** [assert(cond && "msg")], with assertions checked ([NDEBUG] not
    defined). *)
Definition assert (cond : bool) (msg : string) : outcome unit :=
  if cond then Returned tt else AssertionFailed msg.

(** ** Machine integers

    [size_t] and [uint32_t] values are [N]; [++i] on a [uint32_t] wraps. *)

Definition u32_modulus : N := 2 ^ 32.

Definition u32_incr (i : N) : N := (i + 1) mod u32_modulus.

(** Modelled from the spec: [to_u32] comes from common/helpers.h and is not
    defined in subpass.h.  The specification gives
    [count = scene_lights.size()] and [count = num_lights], so the
    conversion keeps the value. *)
Definition to_u32 (value : N) : N := value.

(** ** std::vector accessors *)

(** [v.at(i)]: bounds-checked, throws [std::out_of_range]. *)
Definition vector_at {A : Type} (v : list A) (i : N) : outcome A :=
  match v !! N.to_nat i with
  | Some a => Returned a
  | None => Thrown "out_of_range"
  end.

(** [v.back()]: no check; undefined on an empty vector. *)
Definition vector_back {A : Type} (v : list A) : outcome A :=
  match last v with
  | Some a => Returned a
  | None => Undefined
  end.

(** ** Writing a range into a fixed array

    An array member of fixed bound is a list of that length; [None] marks
    an element that was never written.  [std::transform] and [std::copy]
    store one element after the other starting at [d_first]; a store past
    the last element is outside the array. *)

Fixpoint std_transform {A B : Type} (f : A -> B) (input : list A)
    (d_first : nat) (arr : list (option B)) : outcome (list (option B)) :=
  match input with
  | [] => Returned arr
  | a :: rest =>
      if decide (d_first < length arr)%nat
      then std_transform f rest (S d_first) (<[d_first := Some (f a)]> arr)
      else Undefined
  end.

Definition std_copy {A : Type} (input : list A) (d_first : nat)
    (arr : list (option A)) : outcome (list (option A)) :=
  std_transform (fun a => a) input d_first arr.

(** ** for (uint32_t i = 0U; i < bound; ++i) body

    The loop state [s] is what the body updates; [fuel] bounds the number
    of times the condition is evaluated. *)

Fixpoint for_u32 {St : Type} (fuel : nat) (bound : N)
    (body : N -> St -> outcome St) (i : N) (s : St) : outcome St :=
  match fuel with
  | O => OutOfFuel
  | S fuel' =>
      if i <? bound
      then s' ← body i s; for_u32 fuel' bound body (u32_incr i) s'
      else Returned s
  end.

(** ** Collaborators

    glm, the scene graph and the pipeline state are used through their
    interfaces only; their types and operations are parameters. *)

Class Collaborators := {
  (* glm *)
  float : Type;
  quat : Type;
  (* scene_graph/components/light.h, scene_graph/node.h *)
  LightType : Type;
  sg_Light : Type;
  sg_Node : Type;
  sg_Transform : Type;
  (* core/shader_module.h, rendering/pipeline_state.h *)
  ShaderSource : Type;
  DepthStencilState : Type;
  (* DepthStencilState{} *)
  DepthStencilState_init : DepthStencilState;
  (* rendering/render_context.h *)
  RenderContext : Type;
}.

Section Framework.
Context `{Collaborators}.

Record vec2 := { v2_x : float; v2_y : float }.
Record vec3 := { v3_x : float; v3_y : float; v3_z : float }.
Record vec4 := { v4_x : float; v4_y : float; v4_z : float; v4_w : float }.

(** [glm::vec4{v, w}] from a [vec3] and a scalar. *)
Definition vec4_of (v : vec3) (w : float) : vec4 :=
  {| v4_x := v3_x v; v4_y := v3_y v; v4_z := v3_z v; v4_w := w |}.

(** [struct alignas(16) Light] *)
Record Light := {
  position : vec4;
  color : vec4;
  direction : vec4;
  info : vec2;
}.

(** [sg::LightProperties], the members the subpass reads. *)
Record LightProperties := {
  lp_direction : vec3;
  lp_color : vec3;
  lp_intensity : float;
  lp_range : float;
  lp_inner_cone_angle : float;
  lp_outer_cone_angle : float;
}.

Class SceneGraph := {
  (* glm::quat * glm::vec3 *)
  quat_rotate : quat -> vec3 -> vec3;
  (* static_cast<float>(sg::LightType) *)
  float_of_LightType : LightType -> float;
  get_properties : sg_Light -> LightProperties;
  get_light_type : sg_Light -> LightType;
  get_node : sg_Light -> sg_Node;
  get_transform : sg_Node -> sg_Transform;
  get_translation : sg_Transform -> vec3;
  get_rotation : sg_Transform -> quat;
}.

(** Modelled from the spec: the template argument [T] ([ForwardLights] or
    [DeferredLights]) is declared by the subpasses that instantiate the
    templates, not in subpass.h.  The specification describes it as a
    [count] field and a fixed-capacity ordered array of GPU light records;
    [capacity] is the bound of the array member [lights], [sizeof] the size
    of the type. *)
Record LightsType := {
  capacity : nat;
  sizeof : N;
}.

(** An object of type [T].  A member that was never assigned is [None]. *)
Record LightInfo := {
  count : option N;
  lights : list (option Light);
}.

(** [T light_info;] *)
Definition declare (T : LightsType) : LightInfo :=
  {| count := None; lights := replicate (capacity T) None |}.

Definition set_count (value : N) (light_info : LightInfo) : LightInfo :=
  {| count := Some value; lights := lights light_info |}.

Definition set_lights (arr : list (option Light)) (light_info : LightInfo)
    : LightInfo :=
  {| count := count light_info; lights := arr |}.

(** The Vulkan flag [VK_BUFFER_USAGE_UNIFORM_BUFFER_BIT = 0x00000010]. *)
Definition VK_BUFFER_USAGE_UNIFORM_BUFFER_BIT : N := 16.

(** Modelled from the spec: [BufferAllocation] comes from buffer_pool.h and
    is not defined in subpass.h.  It is a region of a per-frame buffer, asked
    for with a usage flag and a size, into which a value can be uploaded. *)
Record BufferAllocation := {
  buffer_usage : N;
  buffer_size : N;
  data : option LightInfo;
}.

(** Modelled from the spec: [RenderFrame::allocate_buffer(usage, size)] of
    the active frame returns a fresh allocation, nothing uploaded yet. *)
Definition allocate_buffer (usage_flag size_bytes : N) : BufferAllocation :=
  {| buffer_usage := usage_flag; buffer_size := size_bytes; data := None |}.

(** Modelled from the spec: [BufferAllocation::update(value)] uploads the
    value into the allocation. *)
Definition update (light_buffer : BufferAllocation) (value : LightInfo)
    : BufferAllocation :=
  {| buffer_usage := buffer_usage light_buffer;
     buffer_size := buffer_size light_buffer;
     data := Some value |}.

(** ** class Subpass: data members *)

Record Subpass := {
  render_context : RenderContext;
  use_dynamic_resources : bool;
  vertex_shader : ShaderSource;
  fragment_shader : ShaderSource;
  depth_stencil_state : DepthStencilState;
  input_attachments : list N;
  output_attachments : list N;
}.

(** Modelled from the spec: the constructor is only declared in subpass.h
    (its definition is in subpass.cpp).  It takes the render context and the
    two shader sources; every other member gets its default member
    initializer from the class definition ([use_dynamic_resources{false}],
    [depth_stencil_state{}], [input_attachments = {}],
    [output_attachments = {0}]). *)
Definition Subpass_new (ctx : RenderContext)
    (vertex_source fragment_source : ShaderSource) : Subpass :=
  {| render_context := ctx;
     use_dynamic_resources := false;
     vertex_shader := vertex_source;
     fragment_shader := fragment_source;
     depth_stencil_state := DepthStencilState_init;
     input_attachments := [];
     output_attachments := [0] |}.

(** Modelled from the spec: [get_input_attachments] is only declared in
    subpass.h (its definition is in subpass.cpp); it returns the stored
    input list. *)
Definition get_input_attachments (s : Subpass) : list N :=
  input_attachments s.

(** Modelled from the spec: [get_output_attachments] (subpass.cpp) returns
    the stored output list. *)
Definition get_output_attachments (s : Subpass) : list N :=
  output_attachments s.

(** Modelled from the spec: [set_input_attachments] (subpass.cpp) replaces
    the whole input sequence. *)
Definition set_input_attachments (input : list N) (s : Subpass) : Subpass :=
  {| render_context := render_context s;
     use_dynamic_resources := use_dynamic_resources s;
     vertex_shader := vertex_shader s;
     fragment_shader := fragment_shader s;
     depth_stencil_state := depth_stencil_state s;
     input_attachments := input;
     output_attachments := output_attachments s |}.

(** Modelled from the spec: [set_output_attachments] (subpass.cpp) replaces
    the whole output sequence. *)
Definition set_output_attachments (output : list N) (s : Subpass) : Subpass :=
  {| render_context := render_context s;
     use_dynamic_resources := use_dynamic_resources s;
     vertex_shader := vertex_shader s;
     fragment_shader := fragment_shader s;
     depth_stencil_state := depth_stencil_state s;
     input_attachments := input_attachments s;
     output_attachments := output |}.

(** Modelled from the spec: the render target of the active frame
    (rendering/render_target.h) holds the input and output attachment index
    lists in use; it is shared state outside the subpass. *)
Record RenderTarget := {
  rt_input_attachments : list N;
  rt_output_attachments : list N;
}.

(** Modelled from the spec: [update_render_target_attachments] is defined in
    subpass.cpp.  It pushes the subpass's current input and output
    attachment lists into the render target of the active frame. *)
Definition update_render_target_attachments (s : Subpass)
    (render_target : RenderTarget) : RenderTarget :=
  let render_target :=
    {| rt_input_attachments := input_attachments s;
       rt_output_attachments := rt_output_attachments render_target |} in
  {| rt_input_attachments := rt_input_attachments render_target;
     rt_output_attachments := output_attachments s |}.

Context `{SceneGraph}.

(** ** Subpass::allocate_lights *)

Definition allocate_lights (T : LightsType) (scene_lights : list sg_Light)
    (max_lights : N) : outcome BufferAllocation :=
  _ ← assert (N.of_nat (length scene_lights) <=? max_lights)
         "Exceeding Max Light Capacity";
  let light_info := declare T in
  let light_info :=
    set_count (to_u32 (N.of_nat (length scene_lights))) light_info in
  arr ← std_transform
          (fun light =>
             let properties := get_properties light in
             let transform := get_transform (get_node light) in
             {| position := vec4_of (get_translation transform)
                              (float_of_LightType (get_light_type light));
                color := vec4_of (lp_color properties)
                           (lp_intensity properties);
                direction := vec4_of
                               (quat_rotate (get_rotation transform)
                                  (lp_direction properties))
                               (lp_range properties);
                info := {| v2_x := lp_inner_cone_angle properties;
                           v2_y := lp_outer_cone_angle properties |} |})
          scene_lights 0 (lights light_info);
  let light_info := set_lights arr light_info in
  let light_buffer :=
    allocate_buffer VK_BUFFER_USAGE_UNIFORM_BUFFER_BIT (sizeof T) in
  let light_buffer := update light_buffer light_info in
  Returned light_buffer.

(** ** Subpass::allocate_set_num_lights

    The body of the [for] loop, with [lights_vector] as the loop state.
    [push_back] is an append: running out of memory ([std::bad_alloc]) is
    not modelled, so a loop that cannot end by its condition shows as
    [OutOfFuel], where the program would go on until [push_back] throws. *)

Definition push_light (scene_lights : list sg_Light) (i : N)
    (lights_vector : list Light) : outcome (list Light) :=
  light ← (if i <? N.of_nat (length scene_lights)
           then vector_at scene_lights i
           else vector_back scene_lights);
  let properties := get_properties light in
  let transform := get_transform (get_node light) in
  Returned
    (lights_vector ++
     [ {| position := vec4_of (get_translation transform)
                        (float_of_LightType (get_light_type light));
          color := vec4_of (lp_color properties) (lp_intensity properties);
          direction := vec4_of
                         (quat_rotate (get_rotation transform)
                            (lp_direction properties))
                         (lp_range properties);
          info := {| v2_x := lp_inner_cone_angle properties;
                     v2_y := lp_outer_cone_angle properties |} |} ]).

(** The loop is run with [num_lights + 1] evaluations of its condition:
    enough whenever it ends at all ([for_u32_fuel_enough]); with
    [num_lights >= 2^32] the counter wraps before it reaches the bound and
    no budget makes the loop return ([for_u32_wraps]). *)
Definition allocate_set_num_lights (T : LightsType)
    (scene_lights : list sg_Light) (num_lights : N)
    : outcome BufferAllocation :=
  let light_info := declare T in
  let light_info := set_count (to_u32 num_lights) light_info in
  lights_vector ← for_u32 (S (N.to_nat num_lights)) num_lights
                    (push_light scene_lights) 0 [];
  arr ← std_copy lights_vector 0 (lights light_info);
  let light_info := set_lights arr light_info in
  let light_buffer :=
    allocate_buffer VK_BUFFER_USAGE_UNIFORM_BUFFER_BIT (sizeof T) in
  let light_buffer := update light_buffer light_info in
  Returned light_buffer.

(** The transform rule of the specification, written from its words:
    position = (world translation of the light's node, light type as
    float); color = (light color, light intensity); direction = (world
    rotation of the node applied to the light's local direction, light
    range); info = (inner cone angle, outer cone angle). *)
Definition per_light_transform (light : sg_Light) : Light :=
  {| position :=
       vec4_of (get_translation (get_transform (get_node light)))
         (float_of_LightType (get_light_type light));
     color :=
       vec4_of (lp_color (get_properties light))
         (lp_intensity (get_properties light));
     direction :=
       vec4_of
         (quat_rotate (get_rotation (get_transform (get_node light)))
            (lp_direction (get_properties light)))
         (lp_range (get_properties light));
     info :=
       {| v2_x := lp_inner_cone_angle (get_properties light);
          v2_y := lp_outer_cone_angle (get_properties light) |} |}.

(** ** Reading the result of a call *)

(** The scene light read for record [k] by [allocate_set_num_lights]:
    [scene_lights.at(k)] inside the list, [scene_lights.back()] beyond. *)
Definition selected (scene_lights : list sg_Light) (k : nat)
    : option sg_Light :=
  if decide (k < length scene_lights)%nat
  then scene_lights !! k
  else last scene_lights.

(** A call of one of the two packing operations. *)
Inductive packing_call :=
| Clamp (T : LightsType) (scene_lights : list sg_Light) (max_lights : N)
| Pad (T : LightsType) (scene_lights : list sg_Light) (num_lights : N).

Definition run_call (c : packing_call) : outcome BufferAllocation :=
  match c with
  | Clamp T scene_lights max_lights =>
      allocate_lights T scene_lights max_lights
  | Pad T scene_lights num_lights =>
      allocate_set_num_lights T scene_lights num_lights
  end.

(** The scene light a call processes for record [k], if any. *)
Definition light_for (c : packing_call) (k : nat) : option sg_Light :=
  match c with
  | Clamp _ scene_lights _ => scene_lights !! k
  | Pad _ scene_lights num_lights =>
      if decide (N.of_nat k < num_lights) then selected scene_lights k
      else None
  end.

(** Record [k] of the uploaded container, when it was written. *)
Definition record_of (light_buffer : BufferAllocation) (k : nat)
    : option Light :=
  match data light_buffer with
  | Some light_info =>
      match lights light_info !! k with
      | Some (Some r) => Some r
      | _ => None
      end
  | None => None
  end.

(** [count <= capacity] as a property of a call: a call that stops in an
    assertion, throws or never returns produces no container; a call with
    undefined behaviour guarantees nothing about what it produces. *)
Definition respects_capacity (T : LightsType)
    (o : outcome BufferAllocation) : Prop :=
  match o with
  | Returned light_buffer =>
      exists light_info c,
        data light_buffer = Some light_info /\
        count light_info = Some c /\
        c <= N.of_nat (capacity T)
  | Undefined => False
  | AssertionFailed _ | Thrown _ | OutOfFuel => True
  end.

End Framework.

(** ** A small scene to run the operations on

    Scalars are integers, a rotation adds its angle to every component, and a
    light is identified by a number; lights [2k] and [2k+1] sit on the same
    node [k] and have the same type and properties. *)

Definition demo_types : Collaborators :=
  {| float := Z; quat := Z; LightType := nat; sg_Light := nat;
     sg_Node := nat; sg_Transform := nat; ShaderSource := string;
     DepthStencilState := bool; DepthStencilState_init := true;
     RenderContext := unit |}.

Definition demo_vec3 (a b c : Z) : @vec3 demo_types :=
  @Build_vec3 demo_types a b c.

Definition demo_scene : @SceneGraph demo_types :=
  @Build_SceneGraph demo_types
    (fun (q : Z) v =>
       demo_vec3 (v3_x v + q)%Z (v3_y v + q)%Z (v3_z v + q)%Z)
    (fun (t : nat) => Z.of_nat t)
    (fun (l : nat) =>
       @Build_LightProperties demo_types
         (demo_vec3 0 (-1) 0) (demo_vec3 1 1 1)
         (Z.of_nat (Nat.div2 l) * 10)%Z 100%Z 5%Z 7%Z)
    (fun (l : nat) => (Nat.div2 l mod 3)%nat)
    (fun (l : nat) => Nat.div2 l)
    (fun (n : nat) => n)
    (fun (t : nat) => demo_vec3 (Z.of_nat t) 2 3)
    (fun (t : nat) => Z.of_nat t).

Definition demo_T (cap : nat) : LightsType :=
  {| capacity := cap; sizeof := 16 + 64 * N.of_nat cap |}.

(** * Properties *)

(** ** Storing a range *)

Lemma std_transform_length {A B : Type} (f : A -> B) (input : list A) :
  forall (d_first : nat) (arr arr' : list (option B)),
    std_transform f input d_first arr = Returned arr' ->
    length arr' = length arr.
Proof.
  induction input as [|a rest IH]; intros d arr arr' Hrun; simpl in Hrun.
  - by inversion Hrun.
  - destruct (decide (d < length arr)%nat); [|discriminate].
    apply IH in Hrun. by rewrite Hrun, length_insert.
Qed.

(** A range that fits is stored element by element and leaves the rest of
    the array as it was. *)
Lemma std_transform_fits {A B : Type} (f : A -> B) (input : list A) :
  forall (d_first : nat) (arr : list (option B)),
    (d_first + length input <= length arr)%nat ->
    std_transform f input d_first arr =
      Returned (take d_first arr ++ ((fun a => Some (f a)) <$> input)
                ++ drop (d_first + length input) arr).
Proof.
  induction input as [|a rest IH]; intros d arr Hfit; simpl in *.
  - by rewrite Nat.add_0_r, take_drop.
  - destruct (decide (d < length arr)%nat) as [Hd|Hd]; [|lia].
    rewrite IH by (rewrite length_insert; lia).
    f_equal.
    rewrite take_insert_lt by lia.
    rewrite drop_insert_lt by lia.
    rewrite (take_S_r arr d (default None (arr !! d))).
    + rewrite insert_app_r_alt by (rewrite length_take; lia).
      rewrite length_take, Nat.min_l by lia.
      rewrite Nat.sub_diag. simpl.
      rewrite <- app_assoc. simpl.
      by rewrite Nat.add_succ_r.
    + destruct (lookup_lt_is_Some_2 arr d Hd) as [x Hx]. by rewrite Hx.
Qed.

(** A range that does not fit runs past the end of the array. *)
Lemma std_transform_overrun {A B : Type} (f : A -> B) (input : list A) :
  forall (d_first : nat) (arr : list (option B)),
    (d_first <= length arr)%nat ->
    (length arr < d_first + length input)%nat ->
    std_transform f input d_first arr = Undefined.
Proof.
  induction input as [|a rest IH]; intros d arr Hd Hover; simpl in *.
  - lia.
  - destruct (decide (d < length arr)%nat) as [Hlt|Hlt]; [|done].
    apply IH; rewrite length_insert; lia.
Qed.

(** ** The counting loop *)

Lemma u32_incr_small (i : N) : i + 1 < u32_modulus -> u32_incr i = i + 1.
Proof. intros Hi. unfold u32_incr. by apply N.mod_small. Qed.

Lemma u32_incr_range (i : N) : u32_incr i < u32_modulus.
Proof. unfold u32_incr. by apply N.mod_lt. Qed.

(** A bound the counter cannot reach: the loop never returns. *)
Lemma for_u32_wraps {St : Type} (bound : N) (body : N -> St -> outcome St)
    (fuel : nat) :
  u32_modulus <= bound ->
  forall (i : N) (s s' : St),
    i < u32_modulus -> for_u32 fuel bound body i s <> Returned s'.
Proof.
  intros Hbound. induction fuel as [|fuel IH]; intros i s s' Hi; simpl.
  - discriminate.
  - destruct (N.ltb_spec i bound) as [_|Hge]; [|lia].
    destruct (body i s) as [s1| | | |]; simpl; try discriminate.
    apply IH, u32_incr_range.
Qed.

(** More fuel does not change a run that did not use it up. *)
Lemma for_u32_fuel_mono {St : Type} (bound : N)
    (body : N -> St -> outcome St) (fuel : nat) :
  forall (i : N) (s : St) (fuel' : nat),
    (fuel <= fuel')%nat ->
    for_u32 fuel bound body i s <> OutOfFuel ->
    for_u32 fuel' bound body i s = for_u32 fuel bound body i s.
Proof.
  induction fuel as [|fuel IH]; intros i s fuel' Hle Hrun; simpl in *.
  - done.
  - destruct fuel' as [|fuel']; [lia|]. simpl.
    destruct (i <? bound); [|done].
    destruct (body i s) as [s1| | | |]; simpl in *; try done.
    apply IH; [lia|done].
Qed.

(** With a bound the counter reaches, [bound - i + 1] evaluations of the
    condition are enough: the budget is never what stops the loop. *)
Lemma for_u32_terminates {St : Type} (bound : N)
    (body : N -> St -> outcome St) (fuel : nat) :
  (forall i s, body i s <> OutOfFuel) ->
  bound < u32_modulus ->
  forall (i : N) (s : St),
    i <= bound -> (N.to_nat (bound - i) < fuel)%nat ->
    for_u32 fuel bound body i s <> OutOfFuel.
Proof.
  intros Hbody Hbound.
  induction fuel as [|fuel IH]; intros i s Hi Hfuel; simpl.
  - lia.
  - destruct (N.ltb_spec i bound) as [Hlt|Hge]; [|discriminate].
    specialize (Hbody i s).
    destruct (body i s) as [s1| | | |]; simpl; try done.
    rewrite u32_incr_small by lia.
    apply IH; lia.
Qed.

Lemma for_u32_fuel_enough {St : Type} (bound : N)
    (body : N -> St -> outcome St) (s : St) (fuel : nat) :
  (forall i s, body i s <> OutOfFuel) ->
  bound < u32_modulus ->
  (N.to_nat bound < fuel)%nat ->
  for_u32 fuel bound body 0 s = for_u32 (S (N.to_nat bound)) bound body 0 s.
Proof.
  intros Hbody Hbound Hfuel.
  apply for_u32_fuel_mono; [lia|].
  apply for_u32_terminates; [done|done|lia|].
  rewrite N.sub_0_r. lia.
Qed.

(** A bound of zero: the body is never run, whatever it is. *)
Lemma for_u32_zero {St : Type} (body : N -> St -> outcome St) (s : St)
    (fuel : nat) :
  for_u32 (S fuel) 0 body 0 s = Returned s.
Proof. reflexivity. Qed.

Section Packing.
Context `{Collaborators} `{!SceneGraph}.

Implicit Types (T : LightsType) (L : list sg_Light) (l : sg_Light).

(** ** allocate_lights *)

Lemma allocate_lights_asserts T L (max_lights : N) :
  max_lights < N.of_nat (length L) ->
  allocate_lights T L max_lights =
    AssertionFailed "Exceeding Max Light Capacity".
Proof.
  intros Hmax. unfold allocate_lights.
  destruct (N.leb_spec (N.of_nat (length L)) max_lights); [lia|done].
Qed.

Lemma allocate_lights_returns T L (max_lights : N) :
  N.of_nat (length L) <= max_lights ->
  (length L <= capacity T)%nat ->
  allocate_lights T L max_lights =
    Returned
      {| buffer_usage := VK_BUFFER_USAGE_UNIFORM_BUFFER_BIT;
         buffer_size := sizeof T;
         data := Some
           {| count := Some (N.of_nat (length L));
              lights := (Some <$> (per_light_transform <$> L))
                        ++ replicate (capacity T - length L) None |} |}.
Proof.
  intros Hmax Hcap. unfold allocate_lights.
  destruct (N.leb_spec (N.of_nat (length L)) max_lights); [|lia].
  simpl.
  change (fun light : sg_Light => _) with per_light_transform.
  rewrite std_transform_fits by (rewrite length_replicate; simpl; lia).
  simpl. unfold update, allocate_buffer, set_lights, set_count, to_u32. simpl.
  by rewrite drop_replicate, <- list_fmap_compose.
Qed.

Lemma allocate_lights_overruns T L (max_lights : N) :
  N.of_nat (length L) <= max_lights ->
  (capacity T < length L)%nat ->
  allocate_lights T L max_lights = Undefined.
Proof.
  intros Hmax Hcap. unfold allocate_lights.
  destruct (N.leb_spec (N.of_nat (length L)) max_lights); [|lia].
  simpl.
  rewrite std_transform_overrun; [done|lia|].
  rewrite length_replicate. simpl. lia.
Qed.

(** ** allocate_set_num_lights *)

Lemma selected_is_Some L (k : nat) : L <> [] -> is_Some (selected L k).
Proof.
  intros Hne. unfold selected. case_decide.
  - by apply lookup_lt_is_Some_2.
  - destruct (last L) eqn:Hlast; [by eexists|].
    by apply last_None in Hlast.
Qed.

Lemma push_light_selected L (i : N) (lights_vector : list Light) l :
  selected L (N.to_nat i) = Some l ->
  push_light L i lights_vector =
    Returned (lights_vector ++ [per_light_transform l]).
Proof.
  unfold selected, push_light. intros Hsel.
  case_decide as Hlt.
  - destruct (N.ltb_spec i (N.of_nat (length L))); [|lia].
    unfold vector_at. by rewrite Hsel.
  - destruct (N.ltb_spec i (N.of_nat (length L))); [lia|].
    unfold vector_back. by rewrite Hsel.
Qed.

Lemma push_light_no_fuel L (i : N) (lights_vector : list Light) :
  push_light L i lights_vector <> OutOfFuel.
Proof.
  unfold push_light, vector_at, vector_back.
  destruct (i <? N.of_nat (length L));
    [destruct (L !! N.to_nat i)|destruct (last L)]; done.
Qed.

(** The loop appends one record per index, in index order. *)
Lemma for_u32_push_light L (num_lights : N) (fuel : nat) :
  num_lights < u32_modulus ->
  forall (i : N) (lights_vector : list Light),
    i <= num_lights ->
    (i < num_lights -> L <> []) ->
    (N.to_nat (num_lights - i) < fuel)%nat ->
    exists v,
      for_u32 fuel num_lights (push_light L) i lights_vector =
        Returned (lights_vector ++ v) /\
      length v = N.to_nat (num_lights - i) /\
      forall (k : nat) l,
        (k < length v)%nat ->
        selected L (N.to_nat i + k) = Some l ->
        v !! k = Some (per_light_transform l).
Proof.
  intros Hbound.
  induction fuel as [|fuel IH]; intros i acc Hi Hne Hfuel; [lia|].
  simpl. destruct (N.ltb_spec i num_lights) as [Hlt|Hge].
  - destruct (selected_is_Some L (N.to_nat i) (Hne Hlt)) as [l0 Hl0].
    rewrite (push_light_selected _ _ _ _ Hl0). simpl.
    rewrite u32_incr_small by lia.
    destruct (IH (i + 1) (acc ++ [per_light_transform l0]))
      as (v & Hrun & Hlen & Hv); [lia|auto|lia|].
    exists (per_light_transform l0 :: v). split; [|split].
    + by rewrite Hrun, <- app_assoc.
    + simpl. lia.
    + intros [|k] l Hk Hsel; simpl in *.
      * rewrite Nat.add_0_r in Hsel. congruence.
      * apply Hv; [lia|].
        by replace (N.to_nat (i + 1) + k)%nat
          with (N.to_nat i + S k)%nat by lia.
  - exists []. rewrite app_nil_r. split; [done|]. split.
    + simpl. lia.
    + simpl. intros; lia.
Qed.

(** With a bound of [2^32] or more and lights to read, the loop goes on
    until its budget is used up. *)
Lemma for_u32_push_light_wraps L (num_lights : N) (fuel : nat) :
  u32_modulus <= num_lights ->
  L <> [] ->
  forall (i : N) (lights_vector : list Light),
    i < u32_modulus ->
    for_u32 fuel num_lights (push_light L) i lights_vector = OutOfFuel.
Proof.
  intros Hbound Hne.
  induction fuel as [|fuel IH]; intros i acc Hi; [done|].
  simpl. destruct (N.ltb_spec i num_lights) as [Hlt|Hge]; [|lia].
  destruct (selected_is_Some L (N.to_nat i) Hne) as [l0 Hl0].
  rewrite (push_light_selected _ _ _ _ Hl0). simpl.
  apply IH, u32_incr_range.
Qed.

Lemma allocate_set_num_lights_returns T L (num_lights : N) :
  num_lights < u32_modulus ->
  (0 < num_lights -> L <> []) ->
  (N.to_nat num_lights <= capacity T)%nat ->
  exists v,
    length v = N.to_nat num_lights /\
    (forall (k : nat) l,
       (k < N.to_nat num_lights)%nat ->
       selected L k = Some l -> v !! k = Some (per_light_transform l)) /\
    allocate_set_num_lights T L num_lights =
      Returned
        {| buffer_usage := VK_BUFFER_USAGE_UNIFORM_BUFFER_BIT;
           buffer_size := sizeof T;
           data := Some
             {| count := Some num_lights;
                lights := (Some <$> v)
                          ++ replicate (capacity T - N.to_nat num_lights)
                               None |} |}.
Proof.
  intros Hbound Hne Hcap.
  destruct (for_u32_push_light L num_lights (S (N.to_nat num_lights))
              Hbound 0 []) as (v & Hrun & Hlen & Hv); [lia|done|lia|].
  rewrite N.sub_0_r in Hlen.
  exists v. split; [done|]. split.
  - intros k l Hk. apply Hv. lia.
  - unfold allocate_set_num_lights. rewrite Hrun. simpl.
    unfold std_copy.
    rewrite std_transform_fits by (rewrite length_replicate; simpl; lia).
    simpl. unfold update, allocate_buffer, set_lights, set_count, to_u32.
    simpl. by rewrite drop_replicate, Hlen.
Qed.

Lemma allocate_set_num_lights_overruns T L (num_lights : N) :
  num_lights < u32_modulus ->
  L <> [] ->
  (capacity T < N.to_nat num_lights)%nat ->
  allocate_set_num_lights T L num_lights = Undefined.
Proof.
  intros Hbound Hne Hcap.
  destruct (for_u32_push_light L num_lights (S (N.to_nat num_lights))
              Hbound 0 []) as (v & Hrun & Hlen & _); [lia|done|lia|].
  rewrite N.sub_0_r in Hlen.
  unfold allocate_set_num_lights. rewrite Hrun. simpl.
  unfold std_copy. rewrite std_transform_overrun; [done|lia|].
  rewrite length_replicate. simpl. lia.
Qed.

(** No light to read and at least one record asked for: the first iteration
    evaluates [scene_lights.back()] on an empty vector. *)
Lemma allocate_set_num_lights_empty T (num_lights : N) :
  0 < num_lights ->
  allocate_set_num_lights T [] num_lights = Undefined.
Proof.
  intros Hpos. unfold allocate_set_num_lights. simpl.
  destruct (N.ltb_spec 0 num_lights); [done|lia].
Qed.

Lemma allocate_set_num_lights_wraps T L (num_lights : N) :
  u32_modulus <= num_lights ->
  L <> [] ->
  allocate_set_num_lights T L num_lights = OutOfFuel.
Proof.
  intros Hbound Hne. unfold allocate_set_num_lights.
  by rewrite for_u32_push_light_wraps.
Qed.

(** What a returning call tells about its arguments. *)
Lemma allocate_lights_Returned_inv T L (max_lights : N) light_buffer :
  allocate_lights T L max_lights = Returned light_buffer ->
  N.of_nat (length L) <= max_lights /\ (length L <= capacity T)%nat.
Proof.
  intros Hrun.
  destruct (N.le_gt_cases (N.of_nat (length L)) max_lights) as [Hmax|Hmax].
  - split; [done|].
    destruct (Nat.le_gt_cases (length L) (capacity T)) as [Hcap|Hcap];
      [done|].
    by rewrite allocate_lights_overruns in Hrun.
  - by rewrite allocate_lights_asserts in Hrun.
Qed.

Lemma allocate_set_num_lights_Returned_inv T L (num_lights : N)
    light_buffer :
  allocate_set_num_lights T L num_lights = Returned light_buffer ->
  num_lights < u32_modulus /\
  (0 < num_lights -> L <> []) /\
  (N.to_nat num_lights <= capacity T)%nat.
Proof.
  intros Hrun.
  assert (0 < num_lights -> L <> []) as Hne.
  { intros Hpos ->. by rewrite allocate_set_num_lights_empty in Hrun. }
  destruct (N.lt_ge_cases num_lights u32_modulus) as [Hbound|Hbound].
  - split; [done|]. split; [done|].
    destruct (Nat.le_gt_cases (N.to_nat num_lights) (capacity T))
      as [Hcap|Hcap]; [done|].
    rewrite allocate_set_num_lights_overruns in Hrun; try done.
    apply Hne. lia.
  - rewrite allocate_set_num_lights_wraps in Hrun; try done.
    apply Hne. unfold u32_modulus in Hbound. lia.
Qed.

(** The record a returning call stores for a light it processes. *)
Lemma run_call_record (c : packing_call) light_buffer (k : nat) l :
  run_call c = Returned light_buffer ->
  light_for c k = Some l ->
  record_of light_buffer k = Some (per_light_transform l).
Proof.
  destruct c as [T L max_lights|T L num_lights]; simpl; intros Hrun Hl.
  - destruct (allocate_lights_Returned_inv _ _ _ _ Hrun) as [Hmax Hcap].
    rewrite allocate_lights_returns in Hrun by done.
    inversion_clear Hrun. unfold record_of. simpl.
    rewrite lookup_app_l
      by (rewrite !length_fmap; by eapply lookup_lt_Some).
    by rewrite !list_lookup_fmap, Hl.
  - case_decide as Hk; [|done].
    destruct (allocate_set_num_lights_Returned_inv _ _ _ _ Hrun)
      as (Hbound & Hne & Hcap).
    destruct (allocate_set_num_lights_returns T L num_lights)
      as (v & Hlen & Hv & Hret); [done..|].
    rewrite Hret in Hrun. inversion_clear Hrun.
    unfold record_of. simpl.
    rewrite lookup_app_l by (rewrite length_fmap; lia).
    rewrite list_lookup_fmap, (Hv k l); [done|lia|done].
Qed.

(** Whatever the arguments, a container that is returned has its count
    within the capacity of [T]. *)
Lemma returned_within_capacity (c : packing_call) light_buffer :
  run_call c = Returned light_buffer ->
  exists light_info n,
    data light_buffer = Some light_info /\
    count light_info = Some n /\
    n <= N.of_nat
           (capacity match c with Clamp T _ _ | Pad T _ _ => T end).
Proof.
  destruct c as [T L max_lights|T L num_lights]; simpl; intros Hrun.
  - destruct (allocate_lights_Returned_inv _ _ _ _ Hrun) as [Hmax Hcap].
    rewrite allocate_lights_returns in Hrun by done.
    inversion_clear Hrun. simpl. eexists _, _. repeat split. lia.
  - destruct (allocate_set_num_lights_Returned_inv _ _ _ _ Hrun)
      as (Hbound & Hne & Hcap).
    destruct (allocate_set_num_lights_returns T L num_lights)
      as (v & _ & _ & Hret); [done..|].
    rewrite Hret in Hrun. inversion_clear Hrun. simpl.
    eexists _, _. repeat split. lia.
Qed.

(** ** The claims about light packing *)

(** C1 (amended).  For every container type [T], light list [L] and
    [max_lights] with [|L| <= max_lights] and [|L|] no larger than the
    capacity of [T], [allocate_lights] returns an allocation holding a
    container whose [count] is [|L|] and whose record [i], for every
    [i < |L|], is the per-light transform of [L[i]]: the records are in the
    order of the input list. *)
Theorem allocate_lights_in_order T L (max_lights : N) :
  N.of_nat (length L) <= max_lights ->
  (length L <= capacity T)%nat ->
  exists light_buffer light_info,
    allocate_lights T L max_lights = Returned light_buffer /\
    data light_buffer = Some light_info /\
    count light_info = Some (N.of_nat (length L)) /\
    forall (i : nat) l,
      L !! i = Some l ->
      lights light_info !! i = Some (Some (per_light_transform l)).
Proof.
  intros Hmax Hcap. eexists _, _.
  split; [by apply allocate_lights_returns|].
  split; [done|]. split; [done|].
  intros i l Hl. simpl.
  rewrite lookup_app_l by (rewrite !length_fmap; by eapply lookup_lt_Some).
  by rewrite !list_lookup_fmap, Hl.
Qed.

(** C2.  Both operations return and store, for every scene light they
    process, the record: position = (translation of the transform of the
    light's node, light type cast to float); color = (light color, light
    intensity); direction = (rotation of that transform applied to the
    light's direction, light range); info = (inner cone angle, outer cone
    angle).  [allocate_lights] does so for every list within [max_lights]
    and the capacity of [T], [allocate_set_num_lights] for every non-empty
    list and every count below [2^32] within the capacity. *)
Theorem light_record_rule T L :
  (forall max_lights : N,
     N.of_nat (length L) <= max_lights ->
     (length L <= capacity T)%nat ->
     exists light_buffer,
       allocate_lights T L max_lights = Returned light_buffer /\
       forall (k : nat) l,
         light_for (Clamp T L max_lights) k = Some l ->
         exists r,
           record_of light_buffer k = Some r /\
           position r =
             vec4_of (get_translation (get_transform (get_node l)))
               (float_of_LightType (get_light_type l)) /\
           color r =
             vec4_of (lp_color (get_properties l))
               (lp_intensity (get_properties l)) /\
           direction r =
             vec4_of
               (quat_rotate (get_rotation (get_transform (get_node l)))
                  (lp_direction (get_properties l)))
               (lp_range (get_properties l)) /\
           info r =
             {| v2_x := lp_inner_cone_angle (get_properties l);
                v2_y := lp_outer_cone_angle (get_properties l) |}) /\
  (forall num_lights : N,
     L <> [] ->
     num_lights < u32_modulus ->
     (N.to_nat num_lights <= capacity T)%nat ->
     exists light_buffer,
       allocate_set_num_lights T L num_lights = Returned light_buffer /\
       forall (k : nat) l,
         light_for (Pad T L num_lights) k = Some l ->
         exists r,
           record_of light_buffer k = Some r /\
           position r =
             vec4_of (get_translation (get_transform (get_node l)))
               (float_of_LightType (get_light_type l)) /\
           color r =
             vec4_of (lp_color (get_properties l))
               (lp_intensity (get_properties l)) /\
           direction r =
             vec4_of
               (quat_rotate (get_rotation (get_transform (get_node l)))
                  (lp_direction (get_properties l)))
               (lp_range (get_properties l)) /\
           info r =
             {| v2_x := lp_inner_cone_angle (get_properties l);
                v2_y := lp_outer_cone_angle (get_properties l) |}).
Proof.
  split.
  - intros max_lights Hmax Hcap.
    eexists. split; [by apply allocate_lights_returns|].
    intros k l Hl. exists (per_light_transform l). split; [|by repeat split].
    apply (run_call_record (Clamp T L max_lights)); [|done].
    by apply allocate_lights_returns.
  - intros num_lights Hne Hbound Hcap.
    destruct (allocate_set_num_lights_returns T L num_lights)
      as (v & _ & _ & Hret); [done..|].
    eexists. split; [exact Hret|].
    intros k l Hl. exists (per_light_transform l). split; [|by repeat split].
    by apply (run_call_record (Pad T L num_lights)).
Qed.

(** C3 (amended).  For every non-empty light list [L] and every [n] no
    larger than the capacity of [T] (and below [2^32], the range of the loop
    counter), [allocate_set_num_lights] returns an allocation holding a
    container with [count = n], whose record [i] is the per-light transform
    of [L[i]] for every [i < min(n, |L|)], and that of the last element of
    [L] for every [i] with [|L| <= i < n]. *)
Theorem allocate_set_num_lights_pads T L (n : N) :
  L <> [] ->
  n < u32_modulus ->
  (N.to_nat n <= capacity T)%nat ->
  exists light_buffer light_info,
    allocate_set_num_lights T L n = Returned light_buffer /\
    data light_buffer = Some light_info /\
    count light_info = Some n /\
    (forall (i : nat) l,
       (i < N.to_nat n)%nat -> L !! i = Some l ->
       lights light_info !! i = Some (Some (per_light_transform l))) /\
    (forall (i : nat) l,
       (length L <= i < N.to_nat n)%nat -> last L = Some l ->
       lights light_info !! i = Some (Some (per_light_transform l))).
Proof.
  intros Hne Hbound Hcap.
  destruct (allocate_set_num_lights_returns T L n)
    as (v & Hlen & Hv & Hret); [done..|].
  eexists _, _. split; [exact Hret|].
  split; [done|]. split; [done|]. simpl.
  split; intros i l Hi Hl.
  - rewrite lookup_app_l by (rewrite length_fmap; lia).
    rewrite list_lookup_fmap, (Hv i l); [done|done|].
    unfold selected. rewrite decide_True; [done|by eapply lookup_lt_Some].
  - rewrite lookup_app_l by (rewrite length_fmap; lia).
    rewrite list_lookup_fmap, (Hv i l); [done|lia|].
    unfold selected. rewrite decide_False; [done|lia].
Qed.

(** C4 (amended).  [allocate_lights] has the precondition
    [|L| <= max_lights]: a call violating it stops in the assertion
    "Exceeding Max Light Capacity"; under the precondition the assertion
    never fires, and the operation completes normally when [L] also fits
    the record array of [T]. *)
Theorem allocate_lights_precondition T L (max_lights : N) :
  (max_lights < N.of_nat (length L) ->
   allocate_lights T L max_lights =
     AssertionFailed "Exceeding Max Light Capacity") /\
  (N.of_nat (length L) <= max_lights ->
   (forall msg, allocate_lights T L max_lights <> AssertionFailed msg) /\
   ((length L <= capacity T)%nat ->
    exists light_buffer,
      allocate_lights T L max_lights = Returned light_buffer)).
Proof.
  split; [apply allocate_lights_asserts|].
  intros Hmax. split.
  - intros msg.
    destruct (Nat.le_gt_cases (length L) (capacity T)) as [Hcap|Hcap].
    + by rewrite allocate_lights_returns.
    + by rewrite allocate_lights_overruns.
  - intros Hcap. eexists. by apply allocate_lights_returns.
Qed.

(** C6 (amended).  A container produced by [allocate_lights] satisfies
    [count <= capacity] of [T] whenever the light list fits the record
    array, and one produced by [allocate_set_num_lights] whenever the
    requested count is no larger than the capacity (and the list is not
    empty unless that count is zero).  Neither operation compares the count
    with the capacity of [T] itself. *)
Theorem packing_respects_capacity T L :
  (forall max_lights : N,
     (length L <= capacity T)%nat ->
     respects_capacity T (allocate_lights T L max_lights)) /\
  (forall num_lights : N,
     (N.to_nat num_lights <= capacity T)%nat ->
     L <> [] \/ num_lights = 0 ->
     respects_capacity T (allocate_set_num_lights T L num_lights)).
Proof.
  split.
  - intros max_lights Hcap.
    destruct (N.le_gt_cases (N.of_nat (length L)) max_lights) as [Hmax|Hmax].
    + rewrite allocate_lights_returns by done. simpl.
      eexists _, _. split; [done|]. split; [done|]. lia.
    + by rewrite allocate_lights_asserts.
  - intros num_lights Hcap Hne.
    destruct (N.lt_ge_cases num_lights u32_modulus) as [Hbound|Hbound].
    + destruct (allocate_set_num_lights_returns T L num_lights)
        as (v & _ & _ & Hret); [done| |done|].
      { destruct Hne; [done|lia]. }
      rewrite Hret. simpl.
      eexists _, _. split; [done|]. split; [done|]. lia.
    + rewrite allocate_set_num_lights_wraps; [done|done|].
      destruct Hne as [Hne|Hzero]; [done|]. subst num_lights. unfold u32_modulus in Hbound. lia.
Qed.

(** C9.  The per-light transform is deterministic: whenever two scene
    lights with the same node transform (translation and rotation), the same
    type and the same properties are processed, in whichever calls, at
    whichever positions and after whichever other lights, the records
    stored for them are identical. *)
Theorem light_record_deterministic (c1 c2 : packing_call) b1 b2
    (k1 k2 : nat) l1 l2 :
  run_call c1 = Returned b1 ->
  run_call c2 = Returned b2 ->
  light_for c1 k1 = Some l1 ->
  light_for c2 k2 = Some l2 ->
  get_translation (get_transform (get_node l1)) =
    get_translation (get_transform (get_node l2)) ->
  get_rotation (get_transform (get_node l1)) =
    get_rotation (get_transform (get_node l2)) ->
  get_light_type l1 = get_light_type l2 ->
  get_properties l1 = get_properties l2 ->
  is_Some (record_of b1 k1) /\ record_of b1 k1 = record_of b2 k2.
Proof.
  intros Hrun1 Hrun2 Hl1 Hl2 Htr Hrot Hty Hprop.
  rewrite (run_call_record c1 b1 k1 l1), (run_call_record c2 b2 k2 l2)
    by done.
  split; [by eexists|].
  unfold per_light_transform. by rewrite Htr, Hrot, Hty, Hprop.
Qed.

(** C10.  For every light list [L], the empty one included,
    [allocate_set_num_lights] with a count of zero returns an allocation
    holding a container with [count = 0] and no record written; the loop it
    runs returns its initial state whatever the body is, so the body, with
    its access to [L.back()], is never executed. *)
Theorem allocate_set_num_lights_zero T L :
  allocate_set_num_lights T L 0 =
    Returned
      {| buffer_usage := VK_BUFFER_USAGE_UNIFORM_BUFFER_BIT;
         buffer_size := sizeof T;
         data := Some {| count := Some 0;
                         lights := replicate (capacity T) None |} |} /\
  (forall body : N -> list Light -> outcome (list Light),
     for_u32 (S (N.to_nat 0)) 0 body 0 [] = Returned []).
Proof. split; [|done]. unfold allocate_set_num_lights. by destruct T. Qed.

End Packing.

Section Attachments.
Context `{Collaborators}.

(** C7.  Every newly constructed [Subpass] has an output-attachment list of
    exactly one entry, index 0, and an empty input-attachment list. *)
Theorem Subpass_new_attachments (ctx : RenderContext)
    (vertex_source fragment_source : ShaderSource) :
  get_output_attachments (Subpass_new ctx vertex_source fragment_source)
    = [0] /\
  get_input_attachments (Subpass_new ctx vertex_source fragment_source)
    = [].
Proof. done. Qed.

(** C8.  [set_input_attachments v] (respectively [set_output_attachments v])
    replaces the whole stored input (respectively output) list with [v] and
    leaves the other list alone; [update_render_target_attachments] then
    makes the lists of the render target exactly the lists stored in the
    subpass, whatever the render target held before. *)
Theorem attachments_replace_and_propagate (s : Subpass) (v : list N)
    (render_target : RenderTarget) :
  (get_input_attachments (set_input_attachments v s) = v /\
   get_output_attachments (set_input_attachments v s) =
     get_output_attachments s) /\
  (get_output_attachments (set_output_attachments v s) = v /\
   get_input_attachments (set_output_attachments v s) =
     get_input_attachments s) /\
  update_render_target_attachments s render_target =
    {| rt_input_attachments := get_input_attachments s;
       rt_output_attachments := get_output_attachments s |} /\
  update_render_target_attachments (set_input_attachments v s) render_target =
    {| rt_input_attachments := v;
       rt_output_attachments := get_output_attachments s |} /\
  update_render_target_attachments (set_output_attachments v s) render_target =
    {| rt_input_attachments := get_input_attachments s;
       rt_output_attachments := v |}.
Proof. done. Qed.

End Attachments.

(** * The operations on a concrete scene *)

(** C1, on two lights and a container type of capacity 8. *)
Lemma allocate_lights_in_order_witness :
  N.of_nat (length [4; 5]%nat) <= 8 /\
  (length [4; 5]%nat <= capacity (demo_T 8))%nat /\
  exists light_buffer light_info,
    @allocate_lights demo_types demo_scene (demo_T 8) [4; 5]%nat 8
      = Returned light_buffer /\
    data light_buffer = Some light_info /\
    count light_info = Some (N.of_nat (length [4; 5]%nat)) /\
    forall (i : nat) (l : @sg_Light demo_types),
      [4; 5]%nat !! i = Some l ->
      lights light_info !! i
        = Some (Some (@per_light_transform demo_types demo_scene l)).
Proof.
  split; [by vm_compute|]. split; [simpl; lia|].
  apply (@allocate_lights_in_order demo_types demo_scene (demo_T 8)
           [4; 5]%nat 8); [by vm_compute|simpl; lia].
Defined.

(** C1 as stated fails where the list is within [max_lights] but longer than
    the record array: two lights, [max_lights = 2], capacity 1. *)
Lemma allocate_lights_beyond_capacity :
  N.of_nat (length [4; 5]%nat) <= 2 /\
  @allocate_lights demo_types demo_scene (demo_T 1) [4; 5]%nat 2 = Undefined.
Proof. split; [by vm_compute|]. by vm_compute. Qed.

(** C2, on two lights of different nodes and types: clamped into a
    container of capacity 8, and padded to four records. *)
Lemma light_record_rule_witness :
  (N.of_nat (length [4; 7]%nat) <= 8 /\
   (length [4; 7]%nat <= capacity (demo_T 8))%nat /\
   exists light_buffer,
     @allocate_lights demo_types demo_scene (demo_T 8) [4; 7]%nat 8
       = Returned light_buffer /\
     record_of light_buffer 0
       = Some (@per_light_transform demo_types demo_scene 4%nat) /\
     record_of light_buffer 1
       = Some (@per_light_transform demo_types demo_scene 7%nat)) /\
  ([4; 7]%nat <> [] /\
   4 < u32_modulus /\
   (N.to_nat 4 <= capacity (demo_T 8))%nat /\
   exists light_buffer,
     @allocate_set_num_lights demo_types demo_scene (demo_T 8) [4; 7]%nat 4
       = Returned light_buffer /\
     record_of light_buffer 0
       = Some (@per_light_transform demo_types demo_scene 4%nat) /\
     record_of light_buffer 3
       = Some (@per_light_transform demo_types demo_scene 7%nat)).
Proof.
  assert (N.of_nat (length [4; 7]%nat) <= 8) as Hmax by (by vm_compute).
  assert (length [4; 7]%nat <= capacity (demo_T 8))%nat as Hfit
    by (simpl; lia).
  assert ([4; 7]%nat <> []) as Hne by discriminate.
  assert (4 < u32_modulus) as Hbound by (by vm_compute).
  assert (N.to_nat 4 <= capacity (demo_T 8))%nat as Hcount by (simpl; lia).
  destruct (@light_record_rule demo_types demo_scene (demo_T 8) [4; 7]%nat)
    as [Hclamp Hpad].
  split.
  - split; [exact Hmax|]. split; [exact Hfit|].
    destruct (Hclamp 8 Hmax Hfit) as (b & Hrun & Hrec).
    exists b. split; [exact Hrun|].
    destruct (Hrec 0%nat 4%nat eq_refl) as (r0 & Hr0 & Hp0 & Hc0 & Hd0 & Hi0).
    destruct (Hrec 1%nat 7%nat eq_refl) as (r1 & Hr1 & Hp1 & Hc1 & Hd1 & Hi1).
    rewrite Hr0, Hr1. destruct r0, r1. simpl in *.
    by rewrite Hp0, Hc0, Hd0, Hi0, Hp1, Hc1, Hd1, Hi1.
  - split; [exact Hne|]. split; [exact Hbound|]. split; [exact Hcount|].
    destruct (Hpad 4 Hne Hbound Hcount) as (b & Hrun & Hrec).
    exists b. split; [exact Hrun|].
    destruct (Hrec 0%nat 4%nat eq_refl) as (r0 & Hr0 & Hp0 & Hc0 & Hd0 & Hi0).
    destruct (Hrec 3%nat 7%nat eq_refl) as (r1 & Hr1 & Hp1 & Hc1 & Hd1 & Hi1).
    rewrite Hr0, Hr1. destruct r0, r1. simpl in *.
    by rewrite Hp0, Hc0, Hd0, Hi0, Hp1, Hc1, Hd1, Hi1.
Defined.

(** C3, on one light padded to four records. *)
Lemma allocate_set_num_lights_pads_witness :
  [4]%nat <> [] /\
  4 < u32_modulus /\
  (N.to_nat 4 <= capacity (demo_T 4))%nat /\
  exists light_buffer light_info,
    @allocate_set_num_lights demo_types demo_scene (demo_T 4) [4]%nat 4
      = Returned light_buffer /\
    data light_buffer = Some light_info /\
    count light_info = Some 4 /\
    (forall (i : nat) (l : @sg_Light demo_types),
       (i < N.to_nat 4)%nat -> [4]%nat !! i = Some l ->
       lights light_info !! i
         = Some (Some (@per_light_transform demo_types demo_scene l))) /\
    (forall (i : nat) (l : @sg_Light demo_types),
       (length [4]%nat <= i < N.to_nat 4)%nat -> last [4]%nat = Some l ->
       lights light_info !! i
         = Some (Some (@per_light_transform demo_types demo_scene l))).
Proof.
  split; [discriminate|]. split; [by vm_compute|]. split; [simpl; lia|].
  apply (@allocate_set_num_lights_pads demo_types demo_scene (demo_T 4)
           [4]%nat 4); [discriminate|by vm_compute|simpl; lia].
Defined.

(** C3 as stated fails for a count above the capacity: one light, [n = 2],
    capacity 1. *)
Lemma allocate_set_num_lights_beyond_capacity :
  [4]%nat <> [] /\
  @allocate_set_num_lights demo_types demo_scene (demo_T 1) [4]%nat 2
    = Undefined.
Proof. split; [discriminate|]. by vm_compute. Qed.

(** C4, on a list within [max_lights] and within the capacity. *)
Lemma allocate_lights_precondition_witness :
  N.of_nat (length [4; 5]%nat) <= 8 /\
  (length [4; 5]%nat <= capacity (demo_T 8))%nat /\
  (forall msg,
     @allocate_lights demo_types demo_scene (demo_T 8) [4; 5]%nat 8
       <> AssertionFailed msg) /\
  exists light_buffer,
    @allocate_lights demo_types demo_scene (demo_T 8) [4; 5]%nat 8
      = Returned light_buffer.
Proof.
  assert (N.of_nat (length [4; 5]%nat) <= 8) as Hmax by (by vm_compute).
  assert (length [4; 5]%nat <= capacity (demo_T 8))%nat as Hcap
    by (simpl; lia).
  split; [exact Hmax|]. split; [exact Hcap|].
  destruct (@allocate_lights_precondition demo_types demo_scene (demo_T 8)
              [4; 5]%nat 8) as [_ Hpre].
  destruct (Hpre Hmax) as [Hquiet Hdone].
  split; [exact Hquiet|exact (Hdone Hcap)].
Defined.

(** C4 as stated fails where the precondition holds but the list is longer
    than the record array: one light, [max_lights = 5], capacity 0. *)
Lemma allocate_lights_precondition_not_enough :
  N.of_nat (length [4]%nat) <= 5 /\
  @allocate_lights demo_types demo_scene (demo_T 0) [4]%nat 5 = Undefined.
Proof. split; [by vm_compute|]. by vm_compute. Qed.

(** C5, at a scene without lights and a count of 4: the call has undefined
    behaviour ([back()] on an empty vector); no assertion stops it. *)
Theorem allocate_set_num_lights_empty_scene :
  @allocate_set_num_lights demo_types demo_scene (demo_T 4) [] 4
    = Undefined /\
  forall msg,
    @allocate_set_num_lights demo_types demo_scene (demo_T 4) [] 4
      <> AssertionFailed msg.
Proof. split; [by vm_compute|]. intros msg. by vm_compute. Qed.

(** C6, on lists and counts within the capacity. *)
Lemma packing_respects_capacity_witness :
  (length [4; 5]%nat <= capacity (demo_T 2))%nat /\
  (N.to_nat 2 <= capacity (demo_T 2))%nat /\
  @respects_capacity demo_types (demo_T 2)
    (@allocate_lights demo_types demo_scene (demo_T 2) [4; 5]%nat 8) /\
  @respects_capacity demo_types (demo_T 2)
    (@allocate_set_num_lights demo_types demo_scene (demo_T 2) [4; 5]%nat 2).
Proof.
  assert (length [4; 5]%nat <= capacity (demo_T 2))%nat as Hfit
    by (simpl; lia).
  assert (N.to_nat 2 <= capacity (demo_T 2))%nat as Hcount
    by (simpl; lia).
  split; [exact Hfit|]. split; [exact Hcount|].
  destruct (@packing_respects_capacity demo_types demo_scene (demo_T 2)
              [4; 5]%nat) as [Hclamp Hpad].
  split; [exact (Hclamp 8 Hfit)|].
  apply (Hpad 2 Hcount). left. discriminate.
Defined.

(** C6 as stated fails for a requested count above the capacity: the count
    assigned is 3, the capacity is 2, and copying the three records runs
    past the record array. *)
Lemma requested_count_above_capacity :
  N.of_nat (capacity (demo_T 2)) < to_u32 3 /\
  @allocate_set_num_lights demo_types demo_scene (demo_T 2) [4; 5; 6]%nat 3
    = Undefined /\
  ~ @respects_capacity demo_types (demo_T 2)
      (@allocate_set_num_lights demo_types demo_scene (demo_T 2)
         [4; 5; 6]%nat 3).
Proof. split; [by vm_compute|]. split; [by vm_compute|]. by vm_compute. Qed.

(** C9, on lights 4 and 5 (same node, type and properties), one processed
    first by [allocate_lights], the other as the padding of
    [allocate_set_num_lights] after light 0. *)
Lemma light_record_deterministic_witness :
  exists b1 b2,
    @run_call demo_types demo_scene (@Clamp demo_types (demo_T 8) [4; 1]%nat 8)
      = Returned b1 /\
    @run_call demo_types demo_scene (@Pad demo_types (demo_T 4) [0; 5]%nat 3)
      = Returned b2 /\
    is_Some (record_of b1 0) /\ record_of b1 0 = record_of b2 2.
Proof.
  eexists _, _. split; [vm_compute; reflexivity|].
  split; [vm_compute; reflexivity|].
  apply (@light_record_deterministic demo_types demo_scene
           (@Clamp demo_types (demo_T 8) [4; 1]%nat 8) (@Pad demo_types (demo_T 4) [0; 5]%nat 3)
           _ _ 0%nat 2%nat 4%nat 5%nat);
    vm_compute; reflexivity.
Defined.

(** * Further properties of the packing operations *)

(** Storing the image of a list is storing the list through the composed
    function. *)
Lemma std_transform_fmap {A B C : Type} (f : B -> C) (g : A -> B)
    (input : list A) :
  forall (d_first : nat) (arr : list (option C)),
    std_transform f (g <$> input) d_first arr =
    std_transform (fun a => f (g a)) input d_first arr.
Proof.
  induction input as [|a rest IH]; intros d arr; simpl; [done|].
  destruct (decide (d < length arr)%nat); [apply IH|done].
Qed.

(** Two bodies that agree below the bound give the same loop. *)
Lemma for_u32_ext {St : Type} (bound : N)
    (body1 body2 : N -> St -> outcome St) (fuel : nat) :
  (forall i s, i < bound -> body1 i s = body2 i s) ->
  forall (i : N) (s : St),
    for_u32 fuel bound body1 i s = for_u32 fuel bound body2 i s.
Proof.
  intros Hagree. induction fuel as [|fuel IH]; intros i s; simpl; [done|].
  destruct (N.ltb_spec i bound) as [Hlt|Hge]; [|done].
  rewrite (Hagree i s Hlt).
  destruct (body2 i s); simpl; [apply IH|done..].
Qed.

Section PackingMore.
Context `{Collaborators} `{!SceneGraph}.

Implicit Types (T : LightsType) (L : list sg_Light) (l : sg_Light).

(** The body reads the list through one expression only. *)
Lemma push_light_agree L1 L2 (i : N) (lights_vector : list Light) :
  (if i <? N.of_nat (length L1) then vector_at L1 i else vector_back L1) =
  (if i <? N.of_nat (length L2) then vector_at L2 i else vector_back L2) ->
  push_light L1 i lights_vector = push_light L2 i lights_vector.
Proof. intros Hsame. unfold push_light. by rewrite Hsame. Qed.

(** The loop run up to the length of the list maps the list. *)
Lemma for_u32_push_light_length L :
  N.of_nat (length L) < u32_modulus ->
  for_u32 (S (length L)) (N.of_nat (length L)) (push_light L) 0 [] =
    Returned (per_light_transform <$> L).
Proof.
  intros Hbound.
  destruct (for_u32_push_light L (N.of_nat (length L)) (S (length L))
              Hbound 0 []) as (v & Hrun & Hlen & Hv).
  - lia.
  - intros Hpos ->. simpl in Hpos. lia.
  - lia.
  - rewrite Hrun. simpl. f_equal.
    rewrite N.sub_0_r, Nat2N.id in Hlen.
    apply list_eq. intros k. rewrite list_lookup_fmap.
    destruct (L !! k) as [l|] eqn:Hl; simpl.
    + apply Hv; [rewrite Hlen; by eapply lookup_lt_Some|].
      simpl. unfold selected.
      rewrite decide_True; [done|by eapply lookup_lt_Some].
    + apply lookup_ge_None. rewrite Hlen. by apply lookup_ge_None.
Qed.

(** The body either appends a record or reads [back()] of an empty vector:
    [at(i)] is only evaluated with [i < scene_lights.size()]. *)
Lemma push_light_outcome L (i : N) (lights_vector : list Light) :
  (exists v, push_light L i lights_vector = Returned v) \/
  push_light L i lights_vector = Undefined.
Proof.
  unfold push_light.
  destruct (N.ltb_spec i (N.of_nat (length L))) as [Hlt|Hge].
  - unfold vector_at.
    destruct (lookup_lt_is_Some_2 L (N.to_nat i)) as [l0 Hl0]; [lia|].
    rewrite Hl0. simpl. left. by eexists.
  - unfold vector_back. destruct (last L); simpl; [left; by eexists|by right].
Qed.

(** The three ways a call of [allocate_lights] can end. *)
Lemma allocate_lights_cases T L (max_lights : N) :
  (max_lights < N.of_nat (length L) /\
   allocate_lights T L max_lights =
     AssertionFailed "Exceeding Max Light Capacity") \/
  (N.of_nat (length L) <= max_lights /\ (capacity T < length L)%nat /\
   allocate_lights T L max_lights = Undefined) \/
  (N.of_nat (length L) <= max_lights /\ (length L <= capacity T)%nat /\
   exists light_buffer,
     allocate_lights T L max_lights = Returned light_buffer).
Proof.
  destruct (N.le_gt_cases (N.of_nat (length L)) max_lights) as [Hmax|Hmax].
  - destruct (Nat.le_gt_cases (length L) (capacity T)) as [Hcap|Hcap].
    + right. right. split; [done|]. split; [done|].
      eexists. by apply allocate_lights_returns.
    + right. left. split; [done|]. split; [done|].
      by apply allocate_lights_overruns.
  - left. split; [done|]. by apply allocate_lights_asserts.
Qed.

Lemma allocate_set_num_lights_cases T L (num_lights : N) :
  (0 < num_lights /\ L = [] /\
   allocate_set_num_lights T L num_lights = Undefined) \/
  (L <> [] /\ u32_modulus <= num_lights /\
   allocate_set_num_lights T L num_lights = OutOfFuel) \/
  (L <> [] /\ num_lights < u32_modulus /\
   (capacity T < N.to_nat num_lights)%nat /\
   allocate_set_num_lights T L num_lights = Undefined) \/
  (num_lights < u32_modulus /\ (0 < num_lights -> L <> []) /\
   (N.to_nat num_lights <= capacity T)%nat /\
   exists light_buffer,
     allocate_set_num_lights T L num_lights = Returned light_buffer).
Proof.
  assert (forall n : N, n < u32_modulus -> (0 < n -> L <> []) ->
            (N.to_nat n <= capacity T)%nat ->
            exists light_buffer,
              allocate_set_num_lights T L n = Returned light_buffer)
    as Hret.
  { intros n Hbound Hne Hcap.
    destruct (allocate_set_num_lights_returns T L n)
      as (v & _ & _ & Hrun); [done..|]. by eexists. }
  destruct (decide (L = [])) as [->|Hne].
  - destruct (N.eq_0_gt_0_cases num_lights) as [->|Hpos].
    + right. right. right. split; [done|]. split; [lia|].
      split; [simpl; lia|]. apply Hret; [done|lia|simpl; lia].
    + left. split; [done|]. split; [done|].
      by apply allocate_set_num_lights_empty.
  - destruct (N.lt_ge_cases num_lights u32_modulus) as [Hbound|Hbound].
    + destruct (Nat.le_gt_cases (N.to_nat num_lights) (capacity T))
        as [Hcap|Hcap].
      * right. right. right. split; [done|]. split; [done|].
        split; [done|]. by apply Hret.
      * right. right. left. split; [done|]. split; [done|].
        split; [done|]. by apply allocate_set_num_lights_overruns.
    + right. left. split; [done|]. split; [done|].
      by apply allocate_set_num_lights_wraps.
Qed.

(** The loop depends on the list only through what the body reads below
    the bound. *)
Lemma allocate_set_num_lights_ext T L1 L2 (num_lights : N) :
  (forall i : N,
     i < num_lights ->
     (if i <? N.of_nat (length L1) then vector_at L1 i else vector_back L1) =
     (if i <? N.of_nat (length L2) then vector_at L2 i else vector_back L2)) ->
  allocate_set_num_lights T L1 num_lights =
  allocate_set_num_lights T L2 num_lights.
Proof.
  intros Hsame. unfold allocate_set_num_lights.
  rewrite (for_u32_ext num_lights (push_light L1) (push_light L2)); [done|].
  intros i s Hi. by apply push_light_agree, Hsame.
Qed.

(** Asked for as many records as there are lights, the padding operation
    does what the clamping one does. *)
Lemma allocate_set_num_lights_at_length T L (max_lights : N) :
  N.of_nat (length L) <= max_lights ->
  N.of_nat (length L) < u32_modulus ->
  allocate_set_num_lights T L (N.of_nat (length L)) =
  allocate_lights T L max_lights.
Proof.
  intros Hmax Hbound. unfold allocate_set_num_lights, allocate_lights.
  rewrite Nat2N.id, for_u32_push_light_length by done.
  destruct (N.leb_spec (N.of_nat (length L)) max_lights); [|lia].
  simpl. unfold std_copy. by rewrite std_transform_fmap.
Qed.

(** Reading the written records of an array whose first slots hold [v]. *)
Lemma lookup_written (v : list Light) (m k : nat) :
  match ((Some <$> v) ++ replicate m None) !! k with
  | Some (Some r) => Some r
  | _ => None
  end = v !! k.
Proof.
  destruct (decide (k < length v)%nat) as [Hk|Hk].
  - rewrite lookup_app_l by (by rewrite length_fmap).
    rewrite list_lookup_fmap. by destruct (v !! k).
  - rewrite lookup_app_r by (rewrite length_fmap; lia).
    rewrite (proj2 (lookup_ge_None v k)) by lia.
    destruct (replicate m None !! (k - length (Some <$> v))%nat)
      as [[r|]|] eqn:Hrep; try done.
    apply lookup_replicate in Hrep. by destruct Hrep.
Qed.

(** ** Properties *)

(** X1.  How a call of [allocate_lights] ends is decided by the three sizes:
    it stops in the assertion exactly when the list is longer than
    [max_lights] (also when it would not fit the array: the assertion comes
    first), writes outside the array exactly when the list is within
    [max_lights] but longer than the capacity of [T], and returns exactly
    when the list is within both. *)
Theorem allocate_lights_outcome T L (max_lights : N) :
  (allocate_lights T L max_lights =
     AssertionFailed "Exceeding Max Light Capacity"
   <-> max_lights < N.of_nat (length L)) /\
  (allocate_lights T L max_lights = Undefined
   <-> N.of_nat (length L) <= max_lights /\ (capacity T < length L)%nat) /\
  ((exists light_buffer,
      allocate_lights T L max_lights = Returned light_buffer)
   <-> N.of_nat (length L) <= max_lights /\ (length L <= capacity T)%nat).
Proof.
  destruct (allocate_lights_cases T L max_lights)
    as [[Hmax Hrun]|[(Hmax & Hcap & Hrun)|(Hmax & Hcap & b & Hrun)]];
    rewrite Hrun.
  - split; [done|]. split; [split; [done|lia]|].
    split; [by intros [b Hb]|lia].
  - split; [split; [done|lia]|]. split; [done|].
    split; [by intros [b Hb]|lia].
  - split; [split; [done|lia]|]. split; [split; [done|lia]|].
    split; [done|by eexists].
Qed.

(** X2.  A call of [allocate_set_num_lights] never stops in an assertion,
    and [scene_lights.at(i)] never throws [std::out_of_range]: it is only
    evaluated with [i < scene_lights.size()].  The call has undefined
    behaviour exactly when records are asked for from an empty list, or
    when more records are asked for (below [2^32]) than the array of [T]
    holds; it returns exactly when the count is below [2^32], within the
    capacity, and the list is non-empty unless the count is zero. *)
Theorem allocate_set_num_lights_outcome T L (num_lights : N) :
  (forall msg,
     allocate_set_num_lights T L num_lights <> AssertionFailed msg) /\
  allocate_set_num_lights T L num_lights <> Thrown "out_of_range" /\
  (allocate_set_num_lights T L num_lights = Undefined
   <-> (0 < num_lights /\ L = []) \/
       (L <> [] /\ num_lights < u32_modulus /\
        (capacity T < N.to_nat num_lights)%nat)) /\
  ((exists light_buffer,
      allocate_set_num_lights T L num_lights = Returned light_buffer)
   <-> num_lights < u32_modulus /\ (0 < num_lights -> L <> []) /\
       (N.to_nat num_lights <= capacity T)%nat).
Proof.
  destruct (allocate_set_num_lights_cases T L num_lights)
    as [(Hpos & HL & Hrun)|[(HL & Hbound & Hrun)
        |[(HL & Hbound & Hcap & Hrun)|(Hbound & HL & Hcap & b & Hrun)]]];
    rewrite Hrun; (split; [done|]); (split; [done|]).
  - split; [split; [by left|done]|].
    split; [by intros [b Hb]|]. intros (_ & Hne & _). by destruct (Hne Hpos).
  - split.
    + split; [done|]. intros [[_ ?]|(_ & ? & _)]; [done|lia].
    + split; [by intros [b Hb]|lia].
  - split; [split; [by right|done]|].
    split; [by intros [b Hb]|lia].
  - split.
    + split; [done|]. intros [[Hpos ?]|(_ & _ & ?)]; [|lia].
      by destruct (HL Hpos).
    + split; [done|by eexists].
Qed.

(** X3.  [max_lights] is used by the assertion only: two values that both
    pass it give the same result. *)
Theorem allocate_lights_max_irrelevant T L (max1 max2 : N) :
  N.of_nat (length L) <= max1 ->
  N.of_nat (length L) <= max2 ->
  allocate_lights T L max1 = allocate_lights T L max2.
Proof.
  intros H1 H2. unfold allocate_lights.
  destruct (N.leb_spec (N.of_nat (length L)) max1); [|lia].
  by destruct (N.leb_spec (N.of_nat (length L)) max2); [|lia].
Qed.

(** X4.  With [num_lights = scene_lights.size()] the two operations agree:
    same allocation, or the same failure when the list does not fit. *)
Theorem padding_to_length_is_clamp T L (max_lights : N) :
  N.of_nat (length L) <= max_lights ->
  N.of_nat (length L) < u32_modulus ->
  allocate_set_num_lights T L (N.of_nat (length L)) =
  allocate_lights T L max_lights.
Proof. apply allocate_set_num_lights_at_length. Qed.

(** X5.  With fewer records asked for than there are lights, the lights from
    index [num_lights] on are never read: the result is that of the list cut
    to its first [num_lights] elements. *)
Theorem allocate_set_num_lights_truncates T L (num_lights : N) :
  (N.to_nat num_lights <= length L)%nat ->
  allocate_set_num_lights T L num_lights =
  allocate_set_num_lights T (take (N.to_nat num_lights) L) num_lights.
Proof.
  intros Hn. apply allocate_set_num_lights_ext. intros i Hi.
  rewrite length_take, Nat.min_l by done.
  destruct (N.ltb_spec i (N.of_nat (length L))); [|lia].
  destruct (N.ltb_spec i (N.of_nat (N.to_nat num_lights))); [|lia].
  unfold vector_at. by rewrite lookup_take_lt by lia.
Qed.

(** X6.  Padding is clamping of the padded list: with at least as many
    records asked for as there are lights, the result is that of
    [allocate_lights] on the list followed by copies of its last element up
    to [num_lights] elements. *)
Theorem padding_is_clamp_of_padded_list T L l (num_lights : N) :
  last L = Some l ->
  (length L <= N.to_nat num_lights)%nat ->
  num_lights < u32_modulus ->
  allocate_set_num_lights T L num_lights =
  allocate_lights T (L ++ replicate (N.to_nat num_lights - length L) l)
    num_lights.
Proof.
  intros Hlast Hn Hbound.
  set (L' := L ++ replicate (N.to_nat num_lights - length L) l).
  assert (length L' = N.to_nat num_lights) as Hlen.
  { unfold L'. rewrite length_app, length_replicate. lia. }
  rewrite <- (allocate_set_num_lights_at_length T L' num_lights) by lia.
  replace (N.of_nat (length L')) with num_lights by lia.
  apply allocate_set_num_lights_ext. intros i Hi.
  destruct (N.ltb_spec i (N.of_nat (length L'))); [|lia].
  unfold vector_at, vector_back, L'.
  destruct (N.ltb_spec i (N.of_nat (length L))).
  - by rewrite lookup_app_l by lia.
  - rewrite lookup_app_r by lia.
    rewrite lookup_replicate_2 by lia. by rewrite Hlast.
Qed.

(** X7.  In every container that is returned, by either operation, the
    record array has exactly the capacity of [T] and record [k] was written
    exactly when [k < count]: reading [lights[0 .. count)] never meets an
    unwritten record, and nothing is written from [count] on. *)
Theorem written_records_are_counted (c : packing_call) light_buffer :
  run_call c = Returned light_buffer ->
  exists light_info n,
    data light_buffer = Some light_info /\
    count light_info = Some n /\
    length (lights light_info) =
      capacity match c with Clamp T _ _ | Pad T _ _ => T end /\
    forall k : nat, is_Some (record_of light_buffer k) <-> N.of_nat k < n.
Proof.
  destruct c as [T L max_lights|T L num_lights]; simpl; intros Hrun.
  - destruct (allocate_lights_Returned_inv _ _ _ _ Hrun) as [Hmax Hcap].
    rewrite allocate_lights_returns in Hrun by done.
    inversion_clear Hrun. eexists _, _. split; [done|]. split; [done|].
    simpl. split.
    + rewrite length_app, !length_fmap, length_replicate. lia.
    + intros k. unfold record_of. simpl. rewrite lookup_written.
      rewrite lookup_lt_is_Some, length_fmap. lia.
  - destruct (allocate_set_num_lights_Returned_inv _ _ _ _ Hrun)
      as (Hbound & Hne & Hcap).
    destruct (allocate_set_num_lights_returns T L num_lights)
      as (v & Hlen & _ & Hret); [done..|].
    rewrite Hret in Hrun. inversion_clear Hrun.
    eexists _, _. split; [done|]. split; [done|]. simpl. split.
    + rewrite length_app, length_fmap, length_replicate. lia.
    + intros k. unfold record_of. simpl. rewrite lookup_written.
      rewrite lookup_lt_is_Some. lia.
Qed.

(** X8.  With [num_lights >= 2^32] the [uint32_t] counter wraps to 0 before
    it can reach the bound: the loop of [allocate_set_num_lights] returns
    under no budget, and the operation returns no allocation. *)
Theorem padding_loop_wraps T L (num_lights : N) :
  u32_modulus <= num_lights ->
  (forall (fuel : nat) (lights_vector : list Light),
     for_u32 fuel num_lights (push_light L) 0 []
       <> Returned lights_vector) /\
  (forall light_buffer,
     allocate_set_num_lights T L num_lights <> Returned light_buffer).
Proof.
  intros Hbound.
  assert (forall (fuel : nat) (lights_vector : list Light),
            for_u32 fuel num_lights (push_light L) 0 []
              <> Returned lights_vector) as Hloop.
  { intros fuel v. by apply for_u32_wraps. }
  split; [done|]. intros b. unfold allocate_set_num_lights.
  specialize (Hloop (S (N.to_nat num_lights))).
  destruct (for_u32 _ _ _ _ _) as [v| | | |]; simpl; try done.
  by destruct (Hloop v).
Qed.

(** X9.  The padding records are copies of the last real one: in the
    container returned for a non-empty list, every record from index
    [|L| - 1] up to [num_lights - 1] is written and they are all equal. *)
Theorem padding_records_identical T L (num_lights : N) :
  L <> [] ->
  num_lights < u32_modulus ->
  (N.to_nat num_lights <= capacity T)%nat ->
  exists light_buffer light_info,
    allocate_set_num_lights T L num_lights = Returned light_buffer /\
    data light_buffer = Some light_info /\
    forall i j : nat,
      (length L - 1 <= i < N.to_nat num_lights)%nat ->
      (length L - 1 <= j < N.to_nat num_lights)%nat ->
      exists r,
        lights light_info !! i = Some (Some r) /\
        lights light_info !! j = Some (Some r).
Proof.
  intros Hne Hbound Hcap.
  destruct (allocate_set_num_lights_returns T L num_lights)
    as (v & Hlen & Hv & Hret); [done..|].
  destruct (last L) as [l0|] eqn:Hlast; [|by apply last_None in Hlast].
  assert (forall k : nat,
            (length L - 1 <= k < N.to_nat num_lights)%nat ->
            selected L k = Some l0) as Hsel.
  { intros k Hk. unfold selected. case_decide as Hlt; [|done].
    rewrite last_lookup in Hlast.
    by replace k with (pred (length L)) by lia. }
  eexists _, _. split; [exact Hret|]. split; [done|].
  intros i j Hi Hj. exists (per_light_transform l0). simpl.
  rewrite !lookup_app_l by (rewrite length_fmap; lia).
  rewrite !list_lookup_fmap.
  by rewrite (Hv i l0), (Hv j l0) by (try lia; by apply Hsel).
Qed.

End PackingMore.

(** ** The further properties on the concrete scene *)

(** X3 on two lights, with [max_lights] 2 and 100. *)
Lemma allocate_lights_max_irrelevant_witness :
  N.of_nat (length [4; 5]%nat) <= 2 /\
  N.of_nat (length [4; 5]%nat) <= 100 /\
  @allocate_lights demo_types demo_scene (demo_T 8) [4; 5]%nat 2 =
  @allocate_lights demo_types demo_scene (demo_T 8) [4; 5]%nat 100.
Proof.
  split; [by vm_compute|]. split; [by vm_compute|].
  apply (@allocate_lights_max_irrelevant demo_types demo_scene (demo_T 8)
           [4; 5]%nat 2 100); by vm_compute.
Defined.

(** X4 on three lights. *)
Lemma padding_to_length_is_clamp_witness :
  N.of_nat (length [4; 5; 6]%nat) <= 8 /\
  N.of_nat (length [4; 5; 6]%nat) < u32_modulus /\
  @allocate_set_num_lights demo_types demo_scene (demo_T 8) [4; 5; 6]%nat
    (N.of_nat (length [4; 5; 6]%nat)) =
  @allocate_lights demo_types demo_scene (demo_T 8) [4; 5; 6]%nat 8.
Proof.
  split; [by vm_compute|]. split; [by vm_compute|].
  apply (@padding_to_length_is_clamp demo_types demo_scene (demo_T 8)
           [4; 5; 6]%nat 8); by vm_compute.
Defined.

(** X5 on three lights of which two are asked for. *)
Lemma allocate_set_num_lights_truncates_witness :
  (N.to_nat 2 <= length [4; 5; 6]%nat)%nat /\
  @allocate_set_num_lights demo_types demo_scene (demo_T 8) [4; 5; 6]%nat 2 =
  @allocate_set_num_lights demo_types demo_scene (demo_T 8)
    (take (N.to_nat 2) [4; 5; 6]%nat) 2.
Proof.
  split; [simpl; lia|].
  apply (@allocate_set_num_lights_truncates demo_types demo_scene (demo_T 8)
           [4; 5; 6]%nat 2). simpl; lia.
Defined.

(** X6 on two lights padded to five records. *)
Lemma padding_is_clamp_of_padded_list_witness :
  last [4; 7]%nat = Some 7%nat /\
  (length [4; 7]%nat <= N.to_nat 5)%nat /\
  5 < u32_modulus /\
  @allocate_set_num_lights demo_types demo_scene (demo_T 8) [4; 7]%nat 5 =
  @allocate_lights demo_types demo_scene (demo_T 8)
    ([4; 7]%nat ++ replicate (N.to_nat 5 - length [4; 7]%nat) 7%nat) 5.
Proof.
  split; [reflexivity|]. split; [simpl; lia|]. split; [by vm_compute|].
  apply (@padding_is_clamp_of_padded_list demo_types demo_scene (demo_T 8)
           [4; 7]%nat 7%nat 5); [reflexivity|simpl; lia|by vm_compute].
Defined.

(** X7 on a padded container: count 3 in a type of capacity 4. *)
Lemma written_records_are_counted_witness :
  exists light_buffer,
    @run_call demo_types demo_scene (@Pad demo_types (demo_T 4) [4]%nat 3)
      = Returned light_buffer /\
    exists light_info n,
      data light_buffer = Some light_info /\
      count light_info = Some n /\
      length (lights light_info) = capacity (demo_T 4) /\
      forall k : nat, is_Some (record_of light_buffer k) <-> N.of_nat k < n.
Proof.
  eexists. split; [vm_compute; reflexivity|].
  apply (@written_records_are_counted demo_types demo_scene
           (@Pad demo_types (demo_T 4) [4]%nat 3)).
  vm_compute; reflexivity.
Defined.

(** X8 at [num_lights = 2^32]. *)
Lemma padding_loop_wraps_witness :
  u32_modulus <= 4294967296 /\
  (forall (fuel : nat) (lights_vector : list (@Light demo_types)),
     for_u32 fuel 4294967296 (@push_light demo_types demo_scene [4]%nat) 0 []
       <> Returned lights_vector) /\
  (forall light_buffer,
     @allocate_set_num_lights demo_types demo_scene (demo_T 4) [4]%nat
       4294967296 <> Returned light_buffer).
Proof.
  split; [by vm_compute|].
  apply (@padding_loop_wraps demo_types demo_scene (demo_T 4) [4]%nat
           4294967296). by vm_compute.
Defined.

(** X9 on two lights padded to four records. *)
Lemma padding_records_identical_witness :
  [4; 7]%nat <> [] /\
  4 < u32_modulus /\
  (N.to_nat 4 <= capacity (demo_T 4))%nat /\
  exists light_buffer light_info,
    @allocate_set_num_lights demo_types demo_scene (demo_T 4) [4; 7]%nat 4
      = Returned light_buffer /\
    data light_buffer = Some light_info /\
    forall i j : nat,
      (length [4; 7]%nat - 1 <= i < N.to_nat 4)%nat ->
      (length [4; 7]%nat - 1 <= j < N.to_nat 4)%nat ->
      exists r,
        lights light_info !! i = Some (Some r) /\
        lights light_info !! j = Some (Some r).
Proof.
  split; [discriminate|]. split; [by vm_compute|]. split; [simpl; lia|].
  apply (@padding_records_identical demo_types demo_scene (demo_T 4)
           [4; 7]%nat 4); [discriminate|by vm_compute|simpl; lia].
Defined.
